(** * Midea x40 device adapter (midealocal/devices/x40/__init__.py)

    A shallow embedding of [MideaX40Device]: the attribute table, the
    direction/oscillation codec, inbound message processing, outbound
    attribute requests and the customize routine, followed by the properties
    stated about them.

    Python values are dynamically typed, so the embedding carries a small
    universe of values ([PyVal]) with the interpreter's coercions ([int],
    [bool], [==], [/]) written out.  Floats are IEEE binary64 numbers in the
    representation of [SpecFloat]. *)

From Stdlib Require Import ZArith QArith Bool List Ascii String Lia.
From Stdlib Require Import Floats.SpecFloat.
From stdpp Require Import base gmap strings.
Import ListNotations.

Set Warnings "-register-all".
Local Close Scope Q_scope.
Local Open Scope Z_scope.

(** ** Python values and exceptions *)

Inductive PyVal : Type :=
| VNone
| VBool (b : bool)
| VInt (n : Z)
| VFloat (f : spec_float)
| VStr (s : string)
| VList (l : list PyVal)
| VDict (d : list (string * PyVal)).

(** The exception classes that the modelled code can meet; every one of them
    is a subclass of [Exception]. *)
Inductive exn : Type :=
| ValueError
| TypeError
| OverflowError
| AttributeError
| JSONDecodeError.

Inductive result (A : Type) : Type :=
| Ok (a : A)
| Raise (e : exn).
Arguments Ok {A} a.
Arguments Raise {A} e.

Definition is_ok {A} (r : result A) : bool :=
  match r with Ok _ => true | Raise _ => false end.

(** ** Module constants *)

Definition DIRECTION_MIN_VALUE : Z := 60.
Definition DIRECTION_MAX_VALUE : Z := 120.
Definition VENTILATION_FAN_SPEED : Z := 2.
Definition DIRECTION_OSCILLATE : Z := 0xFD.
Definition DIRECTION_STOP : Z := 0xFE.
Definition DIRECTION_00 : Z := 0x00.
Definition DIRECTION_FF : Z := 0xFF.

(** ** Floats: binary64 *)

Module Float64.

Definition prec : Z := 53.
Definition emax : Z := 1024.

Definition signed (s : bool) (m : positive) : Z := cond_Zopp s (Zpos m).

(** [int(f)]: truncation toward zero; NaN and the infinities raise. *)
Definition to_int (f : spec_float) : result Z :=
  match f with
  | S754_zero _ => Ok 0
  | S754_finite s m e =>
      Ok (if 0 <=? e then signed s m * 2 ^ e
          else Z.quot (signed s m) (2 ^ (- e)))
  | S754_infinity _ => Raise OverflowError
  | S754_nan => Raise ValueError
  end.

(** [f == n] for an integer [n]: the comparison is exact. *)
Definition eqb_int (f : spec_float) (n : Z) : bool :=
  match f with
  | S754_zero _ => n =? 0
  | S754_finite s m e =>
      if 0 <=? e then signed s m * 2 ^ e =? n
      else (signed s m mod 2 ^ (- e) =? 0) && (signed s m / 2 ^ (- e) =? n)
  | S754_infinity _ | S754_nan => false
  end.

Definition is_zero (f : spec_float) : bool :=
  match f with S754_zero _ => true | _ => false end.

(** The rational a finite float stands for. *)
Definition value (f : spec_float) : option Q :=
  match f with
  | S754_zero _ => Some (0 # 1)%Q
  | S754_finite s m e =>
      Some (if 0 <=? e then inject_Z (signed s m * 2 ^ e)
            else Qmake (signed s m) (Z.to_pos (2 ^ (- e))))
  | S754_infinity _ | S754_nan => None
  end.

(** The float [2.0]. *)
Definition two : spec_float := S754_finite false (2 ^ 52) (-51).

(** [n / 2] for an integer [n]: the exact quotient [n * 2^-1] rounded to
    nearest-even; an infinite result is Python's OverflowError. *)
Definition int_truediv_2 (n : Z) : result spec_float :=
  match binary_normalize prec emax n (-1) false with
  | S754_infinity _ => Raise OverflowError
  | f => Ok f
  end.

(** [f / 2.0] on floats never raises. *)
Definition float_truediv_2 (f : spec_float) : spec_float :=
  SFdiv prec emax f two.

End Float64.

(** ** Coercions of the interpreter *)

Definition Z_of_bool (b : bool) : Z := if b then 1 else 0.

(** Truth value of an object: [bool(v)]. *)
Definition py_bool (v : PyVal) : bool :=
  match v with
  | VNone => false
  | VBool b => b
  | VInt n => negb (n =? 0)
  | VFloat f => negb (Float64.is_zero f)
  | VStr s => negb (String.eqb s EmptyString)
  | VList l => match l with [] => false | _ => true end
  | VDict d => match d with [] => false | _ => true end
  end.

(** [v == n] for an integer [n]. *)
Definition py_eq_int (v : PyVal) (n : Z) : bool :=
  match v with
  | VInt m => m =? n
  | VBool b => Z_of_bool b =? n
  | VFloat f => Float64.eqb_int f n
  | _ => false
  end.

(** [v == s] for a string [s]. *)
Definition py_eq_str (v : PyVal) (s : string) : bool :=
  match v with
  | VStr t => String.eqb t s
  | _ => false
  end.

(** *** [int(str)] in base 10

    Surrounding whitespace is dropped, one sign is allowed, and the digits
    may be separated by single underscores.  Strings are ASCII text. *)
Module IntLiteral.

Definition is_space (c : ascii) : bool :=
  let n := Z.of_nat (nat_of_ascii c) in
  ((9 <=? n) && (n <=? 13)) || ((28 <=? n) && (n <=? 32)).

Definition digit (c : ascii) : option Z :=
  let n := Z.of_nat (nat_of_ascii c) in
  if (48 <=? n) && (n <=? 57) then Some (n - 48) else None.

Fixpoint lstrip (l : list ascii) : list ascii :=
  match l with
  | c :: r => if is_space c then lstrip r else l
  | [] => []
  end.

Definition strip (l : list ascii) : list ascii :=
  rev (lstrip (rev (lstrip l))).

(** sys.int_info.default_max_str_digits *)
Definition max_str_digits : Z := 4300.

(** [digits acc count after_digit l]: [after_digit] says that the previous
    character was a digit, which is where an underscore or the end of the
    literal may stand. *)
Fixpoint digits (acc count : Z) (after_digit : bool) (l : list ascii)
  : option (Z * Z) :=
  match l with
  | [] => if after_digit then Some (acc, count) else None
  | c :: r =>
      if Ascii.eqb c "_"%char then
        if after_digit then digits acc count false r else None
      else
        match digit c with
        | Some d => digits (10 * acc + d) (count + 1) true r
        | None => None
        end
  end.

Definition unsigned (l : list ascii) : option Z :=
  match digits 0 0 false l with
  | Some (n, count) => if count <=? max_str_digits then Some n else None
  | None => None
  end.

Definition parse (s : string) : option Z :=
  match strip (list_ascii_of_string s) with
  | c :: r =>
      if Ascii.eqb c "-"%char then option_map Z.opp (unsigned r)
      else if Ascii.eqb c "+"%char then unsigned r
      else unsigned (c :: r)
  | [] => None
  end.

End IntLiteral.

(** [int(v)] *)
Definition py_int (v : PyVal) : result Z :=
  match v with
  | VInt n => Ok n
  | VBool b => Ok (Z_of_bool b)
  | VFloat f => Float64.to_int f
  | VStr s =>
      match IntLiteral.parse s with
      | Some n => Ok n
      | None => Raise ValueError
      end
  | VNone | VList _ | VDict _ => Raise TypeError
  end.

(** [v / 2], the statement [value /= 2]. *)
Definition py_truediv_2 (v : PyVal) : result PyVal :=
  match v with
  | VInt n =>
      match Float64.int_truediv_2 n with
      | Ok f => Ok (VFloat f)
      | Raise e => Raise e
      end
  | VBool b =>
      match Float64.int_truediv_2 (Z_of_bool b) with
      | Ok f => Ok (VFloat f)
      | Raise e => Raise e
      end
  | VFloat f => Ok (VFloat (Float64.float_truediv_2 f))
  | VNone | VStr _ | VList _ | VDict _ => Raise TypeError
  end.

(** [s in v]: membership as the container type defines it. *)
Fixpoint str_prefix (p s : list ascii) : bool :=
  match p, s with
  | [], _ => true
  | a :: p', b :: s' => Ascii.eqb a b && str_prefix p' s'
  | _ :: _, [] => false
  end.

Fixpoint str_infix (p s : list ascii) : bool :=
  str_prefix p s ||
  match s with
  | [] => false
  | _ :: s' => str_infix p s'
  end.

(** Dictionaries keep their keys unique and in insertion order. *)
Fixpoint dict_get {V} (d : list (string * V)) (k : string) : option V :=
  match d with
  | [] => None
  | (k', v) :: d' => if String.eqb k' k then Some v else dict_get d' k
  end.

Fixpoint dict_set {V} (d : list (string * V)) (k : string) (v : V)
  : list (string * V) :=
  match d with
  | [] => [(k, v)]
  | (k', v') :: d' =>
      if String.eqb k' k then (k', v) :: d' else (k', v') :: dict_set d' k v
  end.

Definition py_contains_str (container : PyVal) (s : string) : result bool :=
  match container with
  | VDict d => Ok (match dict_get d s with Some _ => true | None => false end)
  | VList l => Ok (existsb (fun x => py_eq_str x s) l)
  | VStr t => Ok (str_infix (list_ascii_of_string s) (list_ascii_of_string t))
  | VNone | VBool _ | VInt _ | VFloat _ => Raise TypeError
  end.

(** [params.get(key)]: only a dict has the method. *)
Definition py_method_get (params : PyVal) (key : string) : result PyVal :=
  match params with
  | VDict d => Ok (match dict_get d key with Some v => v | None => VNone end)
  | _ => Raise AttributeError
  end.

(** ** The attribute enumeration *)

Module DeviceAttributes.

Inductive t : Type :=
| light
| fan_speed
| direction
| oscillation
| ventilation
| smelly_sensor
| current_temperature.

(** [str(member)]: a StrEnum member is its string. *)
Definition name (a : t) : string :=
  match a with
  | light => "light"
  | fan_speed => "fan_speed"
  | direction => "direction"
  | oscillation => "oscillation"
  | ventilation => "ventilation"
  | smelly_sensor => "smelly_sensor"
  | current_temperature => "current_temperature"
  end.

Definition eqb (a b : t) : bool :=
  match a, b with
  | light, light | fan_speed, fan_speed | direction, direction
  | oscillation, oscillation | ventilation, ventilation
  | smelly_sensor, smelly_sensor
  | current_temperature, current_temperature => true
  | _, _ => false
  end.

(** The keys of the attribute dict, in insertion order. *)
Definition keys : list t :=
  [light; fan_speed; direction; oscillation; ventilation; smelly_sensor;
   current_temperature].

End DeviceAttributes.

(** ** Device state *)

(** [self._attributes]: a dict whose key set is fixed at construction to the
    seven members (no statement adds or removes a key), hence a record with
    one slot per member and access by key. *)
Record Attributes : Type := {
  a_light : PyVal;
  a_fan_speed : PyVal;
  a_direction : PyVal;
  a_oscillation : PyVal;
  a_ventilation : PyVal;
  a_smelly_sensor : PyVal;
  a_current_temperature : PyVal
}.

Definition attr_get (a : Attributes) (k : DeviceAttributes.t) : PyVal :=
  match k with
  | DeviceAttributes.light => a_light a
  | DeviceAttributes.fan_speed => a_fan_speed a
  | DeviceAttributes.direction => a_direction a
  | DeviceAttributes.oscillation => a_oscillation a
  | DeviceAttributes.ventilation => a_ventilation a
  | DeviceAttributes.smelly_sensor => a_smelly_sensor a
  | DeviceAttributes.current_temperature => a_current_temperature a
  end.

Definition attr_set (a : Attributes) (k : DeviceAttributes.t) (v : PyVal)
  : Attributes :=
  match k with
  | DeviceAttributes.light =>
      {| a_light := v; a_fan_speed := a_fan_speed a;
         a_direction := a_direction a; a_oscillation := a_oscillation a;
         a_ventilation := a_ventilation a;
         a_smelly_sensor := a_smelly_sensor a;
         a_current_temperature := a_current_temperature a |}
  | DeviceAttributes.fan_speed =>
      {| a_light := a_light a; a_fan_speed := v;
         a_direction := a_direction a; a_oscillation := a_oscillation a;
         a_ventilation := a_ventilation a;
         a_smelly_sensor := a_smelly_sensor a;
         a_current_temperature := a_current_temperature a |}
  | DeviceAttributes.direction =>
      {| a_light := a_light a; a_fan_speed := a_fan_speed a;
         a_direction := v; a_oscillation := a_oscillation a;
         a_ventilation := a_ventilation a;
         a_smelly_sensor := a_smelly_sensor a;
         a_current_temperature := a_current_temperature a |}
  | DeviceAttributes.oscillation =>
      {| a_light := a_light a; a_fan_speed := a_fan_speed a;
         a_direction := a_direction a; a_oscillation := v;
         a_ventilation := a_ventilation a;
         a_smelly_sensor := a_smelly_sensor a;
         a_current_temperature := a_current_temperature a |}
  | DeviceAttributes.ventilation =>
      {| a_light := a_light a; a_fan_speed := a_fan_speed a;
         a_direction := a_direction a; a_oscillation := a_oscillation a;
         a_ventilation := v;
         a_smelly_sensor := a_smelly_sensor a;
         a_current_temperature := a_current_temperature a |}
  | DeviceAttributes.smelly_sensor =>
      {| a_light := a_light a; a_fan_speed := a_fan_speed a;
         a_direction := a_direction a; a_oscillation := a_oscillation a;
         a_ventilation := a_ventilation a;
         a_smelly_sensor := v;
         a_current_temperature := a_current_temperature a |}
  | DeviceAttributes.current_temperature =>
      {| a_light := a_light a; a_fan_speed := a_fan_speed a;
         a_direction := a_direction a; a_oscillation := a_oscillation a;
         a_ventilation := a_ventilation a;
         a_smelly_sensor := a_smelly_sensor a;
         a_current_temperature := v |}
  end.

(** The [attributes=] argument of the constructor. *)
Definition initial_attributes : Attributes :=
  {| a_light := VBool false;
     a_fan_speed := VInt 0;
     a_direction := VNone;
     a_oscillation := VNone;
     a_ventilation := VBool false;
     a_smelly_sensor := VBool false;
     a_current_temperature := VNone |}.

(** Dict objects live in a heap and are held by reference: [self._fields]
    and [message.fields] may name the same object. *)
Definition ref : Type := nat.

(** The instance attributes of the device that this module reads or writes. *)
Record Device : Type := {
  device_id : Z;
  _protocol_version : Z;
  _attributes : Attributes;
  _fields : ref;
  _precision_halves : PyVal;
  _default_precision_halves : bool
}.

(** The property [precision_halves]. *)
Definition precision_halves (d : Device) : PyVal := _precision_halves d.

(** ** Messages *)

(** Modelled from the spec: the codec class [MessageX40Response] is outside
    this file; it is a collaborator exposing per-attribute fields and a raw
    field mapping.  A decoded inbound message is its raw [fields] dict and
    the attributes it exposes by name ([hasattr]/[getattr]). *)
Record MessageX40Response : Type := {
  r_fields : gmap string PyVal;
  r_attrs : gmap string PyVal
}.

Definition getattr (message : MessageX40Response) (name : string)
  : option PyVal :=
  r_attrs message !! name.

(** Modelled from the spec: the codec class [MessageSet] is outside this
    file; it exposes [fields] and attribute setters, and assignment to an
    attribute is plain assignment.  The six attributes below are all
    assigned by [set_attribute] before the message is sent, so the defaults
    of the constructor never show. *)
Record MessageSet : Type := {
  ms_protocol_version : Z;
  ms_fields : ref;
  ms_light : PyVal;
  ms_ventilation : PyVal;
  ms_smelly_sensor : PyVal;
  ms_fan_speed : PyVal;
  ms_direction : PyVal;
  ms_other : gmap string PyVal
}.

Definition ms_with_direction (m : MessageSet) (v : PyVal) : MessageSet :=
  {| ms_protocol_version := ms_protocol_version m; ms_fields := ms_fields m;
     ms_light := ms_light m; ms_ventilation := ms_ventilation m;
     ms_smelly_sensor := ms_smelly_sensor m; ms_fan_speed := ms_fan_speed m;
     ms_direction := v; ms_other := ms_other m |}.

Definition ms_with_fan_speed (m : MessageSet) (v : PyVal) : MessageSet :=
  {| ms_protocol_version := ms_protocol_version m; ms_fields := ms_fields m;
     ms_light := ms_light m; ms_ventilation := ms_ventilation m;
     ms_smelly_sensor := ms_smelly_sensor m; ms_fan_speed := v;
     ms_direction := ms_direction m; ms_other := ms_other m |}.

Definition ms_with_ventilation (m : MessageSet) (v : PyVal) : MessageSet :=
  {| ms_protocol_version := ms_protocol_version m; ms_fields := ms_fields m;
     ms_light := ms_light m; ms_ventilation := v;
     ms_smelly_sensor := ms_smelly_sensor m; ms_fan_speed := ms_fan_speed m;
     ms_direction := ms_direction m; ms_other := ms_other m |}.

Definition ms_with_light (m : MessageSet) (v : PyVal) : MessageSet :=
  {| ms_protocol_version := ms_protocol_version m; ms_fields := ms_fields m;
     ms_light := v; ms_ventilation := ms_ventilation m;
     ms_smelly_sensor := ms_smelly_sensor m; ms_fan_speed := ms_fan_speed m;
     ms_direction := ms_direction m; ms_other := ms_other m |}.

Definition ms_with_smelly_sensor (m : MessageSet) (v : PyVal) : MessageSet :=
  {| ms_protocol_version := ms_protocol_version m; ms_fields := ms_fields m;
     ms_light := ms_light m; ms_ventilation := ms_ventilation m;
     ms_smelly_sensor := v; ms_fan_speed := ms_fan_speed m;
     ms_direction := ms_direction m; ms_other := ms_other m |}.

(** [setattr(message, name, value)] *)
Definition setattr (m : MessageSet) (name : string) (v : PyVal) : MessageSet :=
  if String.eqb name "light" then ms_with_light m v
  else if String.eqb name "ventilation" then ms_with_ventilation m v
  else if String.eqb name "smelly_sensor" then ms_with_smelly_sensor m v
  else if String.eqb name "fan_speed" then ms_with_fan_speed m v
  else if String.eqb name "direction" then ms_with_direction m v
  else
    {| ms_protocol_version := ms_protocol_version m; ms_fields := ms_fields m;
       ms_light := ms_light m; ms_ventilation := ms_ventilation m;
       ms_smelly_sensor := ms_smelly_sensor m; ms_fan_speed := ms_fan_speed m;
       ms_direction := ms_direction m; ms_other := <[name := v]> (ms_other m) |}.

(** ** The world around the device

    Besides the device itself: the heap of dict objects, and a record of
    what was handed to the base class and to the logger. *)
Inductive LogRecord : Type :=
| LogReceived (id : Z) (message : MessageX40Response)
| LogSetCustomizeError (id : Z) (e : exn).

Record World : Type := {
  heap : gmap ref (gmap string PyVal);
  dev : Device;
  sent : list MessageSet;
  updates : list (list (string * PyVal));
  log : list LogRecord
}.

Definition with_dev (w : World) (d : Device) : World :=
  {| heap := heap w; dev := d; sent := sent w; updates := updates w;
     log := log w |}.

Definition with_attributes (d : Device) (a : Attributes) : Device :=
  {| device_id := device_id d; _protocol_version := _protocol_version d;
     _attributes := a; _fields := _fields d;
     _precision_halves := _precision_halves d;
     _default_precision_halves := _default_precision_halves d |}.

Definition with_fields (d : Device) (r : ref) : Device :=
  {| device_id := device_id d; _protocol_version := _protocol_version d;
     _attributes := _attributes d; _fields := r;
     _precision_halves := _precision_halves d;
     _default_precision_halves := _default_precision_halves d |}.

Definition with_precision_halves (d : Device) (v : PyVal) : Device :=
  {| device_id := device_id d; _protocol_version := _protocol_version d;
     _attributes := _attributes d; _fields := _fields d;
     _precision_halves := v;
     _default_precision_halves := _default_precision_halves d |}.

(** [self._attributes[k]] and [self._attributes[k] = v] *)
Definition attribute (w : World) (k : DeviceAttributes.t) : PyVal :=
  attr_get (_attributes (dev w)) k.

Definition store_attribute (w : World) (k : DeviceAttributes.t) (v : PyVal)
  : World :=
  with_dev w (with_attributes (dev w) (attr_set (_attributes (dev w)) k v)).

(** A new dict object. *)
Definition alloc (h : gmap ref (gmap string PyVal)) (d : gmap string PyVal)
  : ref * gmap ref (gmap string PyVal) :=
  let r := fresh (dom h) in (r, <[r := d]> h).

Definition with_heap (w : World) (h : gmap ref (gmap string PyVal)) : World :=
  {| heap := h; dev := dev w; sent := sent w; updates := updates w;
     log := log w |}.

(** Modelled from the spec: [MideaDevice.build_send] belongs to the base
    class, which is outside this file; the message handed to it is recorded,
    in call order. *)
Definition build_send (w : World) (message : MessageSet) : World :=
  {| heap := heap w; dev := dev w; sent := sent w ++ [message];
     updates := updates w; log := log w |}.

(** Modelled from the spec: [MideaDevice.update_all] belongs to the base
    class, which is outside this file; the dict handed to it is recorded, in
    call order. *)
Definition update_all (w : World) (status : list (string * PyVal)) : World :=
  {| heap := heap w; dev := dev w; sent := sent w;
     updates := updates w ++ [status]; log := log w |}.

(** [_LOGGER.debug] and [_LOGGER.exception] *)
Definition logger (w : World) (r : LogRecord) : World :=
  {| heap := heap w; dev := dev w; sent := sent w; updates := updates w;
     log := log w ++ [r] |}.

(** ** The direction codec *)

(** [_convert_to_midea_direction] *)
Definition _convert_to_midea_direction (direction : PyVal) : result Z :=
  match py_int direction with
  | Raise e => Raise e
  | Ok direction =>
      if (direction =? DIRECTION_OSCILLATE) || (direction =? DIRECTION_STOP)
         || ((DIRECTION_MIN_VALUE <=? direction)
             && (direction <=? DIRECTION_MAX_VALUE))
      then Ok direction
      else Ok DIRECTION_FF
  end.

(** [_get_midea_direction]: the tests on [oscillation] are identity tests
    against the two bool singletons. *)
Definition _get_midea_direction (a : Attributes) : PyVal :=
  match attr_get a DeviceAttributes.oscillation with
  | VBool true => VInt DIRECTION_OSCILLATE
  | VBool false =>
      match attr_get a DeviceAttributes.direction with
      | VNone => VInt DIRECTION_STOP
      | direction => direction
      end
  | _ => VInt DIRECTION_FF
  end.

(** ** Queries *)

(** Modelled from the spec: the codec class [MessageQuery] is outside this
    file; a query is built from the protocol version alone. *)
Record MessageQuery : Type := { mq_protocol_version : Z }.

(** [build_query] *)
Definition build_query (d : Device) : list MessageQuery :=
  [{| mq_protocol_version := _protocol_version d |}].

(** ** Inbound messages *)

(** One round of the loop of [process_message] for the key [status];
    [new_status] is the dict under construction.  An exception leaves the
    writes of the earlier rounds in place. *)
Definition process_status (message : MessageX40Response)
    (status : DeviceAttributes.t) (w : World)
    (new_status : list (string * PyVal))
  : World * result (list (string * PyVal)) :=
  match getattr message (DeviceAttributes.name status) with
  | None => (w, Ok new_status)
  | Some value =>
      let halved :=
        if py_bool (_precision_halves (dev w))
           && DeviceAttributes.eqb status DeviceAttributes.current_temperature
        then py_truediv_2 value
        else Ok value in
      match halved with
      | Raise e => (w, Raise e)
      | Ok value =>
          let store (w : World) (value : PyVal) :=
            let w := store_attribute w status value in
            (w, Ok (dict_set new_status (DeviceAttributes.name status)
                      (attribute w status))) in
          if DeviceAttributes.eqb status DeviceAttributes.direction then
            if py_eq_int value DIRECTION_STOP || py_eq_int value DIRECTION_00
               || py_eq_int value DIRECTION_FF
            then (w, Ok new_status)
            else if py_eq_int value DIRECTION_OSCILLATE then
              store (store_attribute w DeviceAttributes.oscillation
                       (VBool true)) VNone
            else
              store (store_attribute w DeviceAttributes.oscillation
                       (VBool false)) value
          else store w value
      end
  end.

Fixpoint process_statuses (message : MessageX40Response)
    (statuses : list DeviceAttributes.t) (w : World)
    (new_status : list (string * PyVal))
  : World * result (list (string * PyVal)) :=
  match statuses with
  | [] => (w, Ok new_status)
  | status :: rest =>
      match process_status message status w new_status with
      | (w, Ok new_status) => process_statuses message rest w new_status
      | (w, Raise e) => (w, Raise e)
      end
  end.

(** The world in which the loop of [process_message] starts: the message
    object owns its [fields] dict, the message is logged, and the device
    takes a reference to that dict. *)
Definition received (message : MessageX40Response) (w : World) : World :=
  let (fields, h) := alloc (heap w) (r_fields message) in
  let w := with_heap w h in
  let w := logger w (LogReceived (device_id (dev w)) message) in
  with_dev w (with_fields (dev w) fields).

(** [process_message], from the decoded message on. *)
Definition process_message (message : MessageX40Response) (w : World)
  : World * result (list (string * PyVal)) :=
  process_statuses message DeviceAttributes.keys (received message w) [].

(** ** Outbound attribute requests *)

Definition settable : list DeviceAttributes.t :=
  [DeviceAttributes.light; DeviceAttributes.fan_speed;
   DeviceAttributes.direction; DeviceAttributes.ventilation;
   DeviceAttributes.smelly_sensor].

(** [attr in [...]]: equality of a str with a StrEnum member is equality of
    strings. *)
Definition is_settable (attr : string) : bool :=
  existsb (fun k => String.eqb attr (DeviceAttributes.name k)) settable.

(** The message as it stands after the six assignments from the state. *)
Definition message_from_state (d : Device) : MessageSet :=
  {| ms_protocol_version := _protocol_version d;
     ms_fields := _fields d;
     ms_light := attr_get (_attributes d) DeviceAttributes.light;
     ms_ventilation := attr_get (_attributes d) DeviceAttributes.ventilation;
     ms_smelly_sensor :=
       attr_get (_attributes d) DeviceAttributes.smelly_sensor;
     ms_fan_speed := attr_get (_attributes d) DeviceAttributes.fan_speed;
     ms_direction := _get_midea_direction (_attributes d);
     ms_other := ∅ |}.

(** The requested change, applied to the message. *)
Definition apply_request (message : MessageSet) (attr : string)
    (value : PyVal) : result MessageSet :=
  if String.eqb attr (DeviceAttributes.name DeviceAttributes.direction) then
    match _convert_to_midea_direction value with
    | Ok direction => Ok (ms_with_direction message (VInt direction))
    | Raise e => Raise e
    end
  else if String.eqb attr (DeviceAttributes.name DeviceAttributes.ventilation)
          && py_eq_int (ms_fan_speed message) VENTILATION_FAN_SPEED
  then
    Ok (ms_with_ventilation (ms_with_fan_speed message (VInt 1))
          (VBool (py_bool value)))
  else Ok (setattr message attr value).

(** [set_attribute] *)
Definition set_attribute (attr : string) (value : PyVal) (w : World)
  : World * result unit :=
  if is_settable attr then
    match apply_request (message_from_state (dev w)) attr value with
    | Ok message => (build_send w message, Ok tt)
    | Raise e => (w, Raise e)
    end
  else (w, Ok tt).

(** ** Vocabulary of the properties *)

(** What a round may touch: nothing but the attribute dict. *)
Definition only_attributes (w w' : World) : Prop :=
  exists a, w' = with_dev w (with_attributes (dev w) a).

(** The round for [direction] on an integer value. *)
Definition decoded_direction (w : World) (b : Z) : World :=
  if (b =? DIRECTION_STOP) || (b =? DIRECTION_00) || (b =? DIRECTION_FF)
  then w
  else if b =? DIRECTION_OSCILLATE then
    store_attribute
      (store_attribute w DeviceAttributes.oscillation (VBool true))
      DeviceAttributes.direction VNone
  else
    store_attribute
      (store_attribute w DeviceAttributes.oscillation (VBool false))
      DeviceAttributes.direction (VInt b).

(** The domain that the attribute table declares for [direction]:
    unset, or an integer from 60 to 120. *)
Definition direction_domain (v : PyVal) : Prop :=
  v = VNone \/ exists b, v = VInt b /\ 60 <= b <= 120.

(** The bytes of the decode table. *)
Definition direction_byte_in_table (b : Z) : Prop :=
  b = 0x00 \/ b = 0xFD \/ b = 0xFE \/ b = 0xFF \/ 60 <= b <= 120.

(** A message whose direction attribute, if any, is a byte of the table. *)
Definition direction_in_table (message : MessageX40Response) : Prop :=
  getattr message "direction" = None
  \/ exists b,
       getattr message "direction" = Some (VInt b)
       /\ direction_byte_in_table b.

(** ** Customize *)

Section Customize.

(** [json.loads] of the interpreter's library. *)
Variable json_loads : string -> result PyVal.

(** The body of the [try]: returns the value to adopt, if any. *)
Definition read_precision_halves (customize : string)
  : result (option PyVal) :=
  match json_loads customize with
  | Raise e => Raise e
  | Ok params =>
      if py_bool params then
        match py_contains_str params "precision_halves" with
        | Raise e => Raise e
        | Ok false => Ok None
        | Ok true =>
            match py_method_get params "precision_halves" with
            | Raise e => Raise e
            | Ok v => Ok (Some v)
            end
        end
      else Ok None
  end.

(** [set_customize] *)
Definition set_customize (customize : string) (w : World)
  : World * result unit :=
  let w :=
    with_dev w (with_precision_halves (dev w)
                  (VBool (_default_precision_halves (dev w)))) in
  if py_bool (VStr customize) && (0 <? Z.of_nat (String.length customize))
  then
    let w :=
      match read_precision_halves customize with
      | Ok (Some v) => with_dev w (with_precision_halves (dev w) v)
      | Ok None => w
      | Raise e => logger w (LogSetCustomizeError (device_id (dev w)) e)
      end in
    (update_all w [("precision_halves", _precision_halves (dev w))], Ok tt)
  else (w, Ok tt).

(** [__init__]: of the constructor's arguments, the identity and network
    parameters only travel to the base class; [device_id] and [protocol]
    are the ones this module reads back. *)
Definition __init__ (id protocol : Z) (customize : string) : World :=
  let (fields, h) := alloc ∅ ∅ in
  let w :=
    {| heap := h;
       dev := {| device_id := id; _protocol_version := protocol;
                 _attributes := initial_attributes; _fields := fields;
                 _precision_halves := VNone;
                 _default_precision_halves := false |};
       sent := []; updates := []; log := [] |} in
  fst (set_customize customize w).

(** The worlds a constructed device can be in. *)
Inductive reachable : World -> Prop :=
| reachable_init id protocol customize :
    reachable (__init__ id protocol customize)
| reachable_process_message message w :
    reachable w -> reachable (fst (process_message message w))
| reachable_set_attribute attr value w :
    reachable w -> reachable (fst (set_attribute attr value w))
| reachable_set_customize customize w :
    reachable w -> reachable (fst (set_customize customize w)).

(** The worlds of a device that only ever receives direction bytes of the
    table. *)
Inductive reachable_in_table : World -> Prop :=
| in_table_init id protocol customize :
    reachable_in_table (__init__ id protocol customize)
| in_table_process_message message w :
    reachable_in_table w -> direction_in_table message ->
    reachable_in_table (fst (process_message message w))
| in_table_set_attribute attr value w :
    reachable_in_table w ->
    reachable_in_table (fst (set_attribute attr value w))
| in_table_set_customize customize w :
    reachable_in_table w ->
    reachable_in_table (fst (set_customize customize w)).

End Customize.

(** ** A decoder for a fragment of JSON

    An instance of the decoder for the documents made of objects, arrays,
    strings without escapes, integers and the three literals.  The theorems
    below hold for every decoder; this one serves to run them. *)
Module JsonFragment.

Definition dquote : ascii := "034"%char.

Definition is_ws (c : ascii) : bool :=
  let n := Z.of_nat (nat_of_ascii c) in
  (n =? 32) || (n =? 9) || (n =? 10) || (n =? 13).

Fixpoint skip_ws (l : list ascii) : list ascii :=
  match l with
  | c :: r => if is_ws c then skip_ws r else l
  | [] => []
  end.

(** The inside of a string, up to the closing quote. *)
Fixpoint string_body (l acc : list ascii) : option (string * list ascii) :=
  match l with
  | [] => None
  | c :: r =>
      if Ascii.eqb c dquote then Some (string_of_list_ascii (rev acc), r)
      else if Ascii.eqb c "\"%char then None
      else if Z.of_nat (nat_of_ascii c) <? 32 then None
      else string_body r (c :: acc)
  end.

Fixpoint digit_run (l : list ascii) (acc : Z) : Z * list ascii :=
  match l with
  | c :: r =>
      match IntLiteral.digit c with
      | Some d => digit_run r (10 * acc + d)
      | None => (acc, l)
      end
  | [] => (acc, [])
  end.

Definition starts_fraction (l : list ascii) : bool :=
  match l with
  | c :: _ => Ascii.eqb c "."%char || Ascii.eqb c "e"%char
              || Ascii.eqb c "E"%char
  | [] => false
  end.

(** An integer: no leading zero, no fraction, no exponent. *)
Definition natural (l : list ascii) : option (Z * list ascii) :=
  match l with
  | c :: r =>
      match IntLiteral.digit c with
      | Some 0 =>
          match r with
          | c' :: _ =>
              match IntLiteral.digit c' with
              | Some _ => None
              | None => if starts_fraction r then None else Some (0, r)
              end
          | [] => Some (0, [])
          end
      | Some d =>
          let (n, rest) := digit_run r d in
          if starts_fraction rest then None else Some (n, rest)
      | None => None
      end
  | [] => None
  end.

Definition literal (word : string) (v : PyVal) (l : list ascii)
  : option (PyVal * list ascii) :=
  let w := list_ascii_of_string word in
  if str_prefix w l then Some (v, skipn (Datatypes.length w) l) else None.

Definition scalar (l : list ascii) : option (PyVal * list ascii) :=
  match l with
  | c :: r =>
      if Ascii.eqb c dquote then
        match string_body r [] with
        | Some (s, rest) => Some (VStr s, rest)
        | None => None
        end
      else if Ascii.eqb c "t"%char then literal "true" (VBool true) l
      else if Ascii.eqb c "f"%char then literal "false" (VBool false) l
      else if Ascii.eqb c "n"%char then literal "null" VNone l
      else if Ascii.eqb c "-"%char then
        match natural r with
        | Some (n, rest) => Some (VInt (- n), rest)
        | None => None
        end
      else
        match natural l with
        | Some (n, rest) => Some (VInt n, rest)
        | None => None
        end
  | [] => None
  end.

Fixpoint value (fuel : nat) (l : list ascii) {struct fuel}
  : option (PyVal * list ascii) :=
  match fuel with
  | O => None
  | S fuel =>
      match skip_ws l with
      | [] => None
      | c :: r =>
          if Ascii.eqb c "{"%char then
            match skip_ws r with
            | c' :: r' =>
                if Ascii.eqb c' "}"%char then Some (VDict [], r')
                else members fuel r []
            | [] => None
            end
          else if Ascii.eqb c "["%char then
            match skip_ws r with
            | c' :: r' =>
                if Ascii.eqb c' "]"%char then Some (VList [], r')
                else elements fuel r []
            | [] => None
            end
          else scalar (c :: r)
      end
  end
with members (fuel : nat) (l : list ascii) (acc : list (string * PyVal))
       {struct fuel} : option (PyVal * list ascii) :=
  match fuel with
  | O => None
  | S fuel =>
      match skip_ws l with
      | c :: r =>
          if Ascii.eqb c dquote then
            match string_body r [] with
            | Some (k, r1) =>
                match skip_ws r1 with
                | c1 :: r2 =>
                    if Ascii.eqb c1 ":"%char then
                      match value fuel r2 with
                      | Some (v, r3) =>
                          let acc := dict_set acc k v in
                          match skip_ws r3 with
                          | c3 :: r4 =>
                              if Ascii.eqb c3 ","%char
                              then members fuel r4 acc
                              else if Ascii.eqb c3 "}"%char
                              then Some (VDict acc, r4)
                              else None
                          | [] => None
                          end
                      | None => None
                      end
                    else None
                | [] => None
                end
            | None => None
            end
          else None
      | [] => None
      end
  end
with elements (fuel : nat) (l : list ascii) (acc : list PyVal)
       {struct fuel} : option (PyVal * list ascii) :=
  match fuel with
  | O => None
  | S fuel =>
      match value fuel l with
      | Some (v, r1) =>
          match skip_ws r1 with
          | c :: r2 =>
              if Ascii.eqb c ","%char then elements fuel r2 (acc ++ [v])
              else if Ascii.eqb c "]"%char
              then Some (VList (acc ++ [v]), r2)
              else None
          | [] => None
          end
      | None => None
      end
  end.

Definition loads (s : string) : result PyVal :=
  let l := list_ascii_of_string s in
  match value (S (Datatypes.length l)) l with
  | Some (v, rest) =>
      match skip_ws rest with
      | [] => Ok v
      | _ :: _ => Raise JSONDecodeError
      end
  | None => Raise JSONDecodeError
  end.

(** The customize strings of the scenarios. *)
Definition quoted (s : string) : string :=
  String dquote (s +:+ String dquote EmptyString).

Definition precision_halves_true : string :=
  "{" +:+ quoted "precision_halves" +:+ ": true}".

Definition bad_json : string := "{bad json".

End JsonFragment.

(** * Properties *)

(** ** The coercions and the decoder, run *)

Example py_int_examples :
  py_int (VStr " 9_0 ") = Ok 90 /\ py_int (VStr "-7") = Ok (-7) /\
  py_int (VStr "1__0") = Raise ValueError /\ py_int (VBool true) = Ok 1 /\
  py_int (VFloat (S754_finite true 5 (-1))) = Ok (-2) /\
  py_int (VStr "0x10") = Raise ValueError.
Proof. repeat split; reflexivity. Qed.

Example py_truediv_2_examples :
  py_truediv_2 (VInt 50) = Ok (VFloat (S754_finite false (25 * 2 ^ 48) (-48))) /\
  py_truediv_2 (VInt 1) = Ok (VFloat (S754_finite false (2 ^ 52) (-53))) /\
  py_truediv_2 (VFloat Float64.two) = Ok (VFloat (S754_finite false (2 ^ 52) (-52))) /\
  py_truediv_2 VNone = Raise TypeError.
Proof. repeat split; vm_compute; reflexivity. Qed.

Example json_fragment_examples :
  JsonFragment.loads JsonFragment.precision_halves_true
    = Ok (VDict [("precision_halves", VBool true)]) /\
  JsonFragment.loads JsonFragment.bad_json = Raise JSONDecodeError /\
  JsonFragment.loads " [1, {}, null , -20] "
    = Ok (VList [VInt 1; VDict []; VNone; VInt (-20)]) /\
  JsonFragment.loads "[1 2]" = Raise JSONDecodeError /\
  JsonFragment.loads "{} x" = Raise JSONDecodeError.
Proof. repeat split; vm_compute; reflexivity. Qed.


(** ** Halving an integer in binary64 *)

Section Halving.

Lemma digits2_pos_size p : digits2_pos p = Pos.size p.
Proof. induction p as [p IH | p IH |]; simpl; congruence. Qed.

Lemma digits2_pos_bound p k :
  0 <= k -> Zpos p < 2 ^ k -> Zpos (digits2_pos p) <= k.
Proof.
  intros Hk Hp. rewrite digits2_pos_size.
  destruct (Z.le_gt_cases (Zpos (Pos.size p)) k) as [H | H]; [exact H |].
  exfalso. pose proof (Pos.size_le p) as Hle.
  assert (Hz : 2 ^ Zpos (Pos.size p) <= 2 * Zpos p).
  { change (2 * Zpos p) with (Zpos p~0).
    rewrite <- Pos2Z.inj_pow. apply Pos2Z.pos_le_pos. exact Hle. }
  assert (Hpow : 2 ^ (k + 1) <= 2 ^ Zpos (Pos.size p))
    by (apply Z.pow_le_mono_r; lia).
  rewrite Z.pow_add_r in Hpow by lia. lia.
Qed.

Lemma iter_xO_digits p n :
  digits2_pos (Pos.iter xO p n) = (digits2_pos p + n)%positive.
Proof.
  induction n as [| n IH] using Pos.peano_ind.
  - simpl. lia.
  - rewrite Pos.iter_succ. simpl. rewrite IH. lia.
Qed.

Lemma iter_xO_value p n : Zpos (Pos.iter xO p n) = Zpos p * 2 ^ Zpos n.
Proof.
  induction n as [| n IH] using Pos.peano_ind.
  - simpl. lia.
  - rewrite Pos.iter_succ, Pos2Z.inj_succ, Z.pow_succ_r by lia.
    change (Zpos (Pos.iter xO p n)~0) with (2 * Zpos (Pos.iter xO p n)).
    rewrite IH. ring.
Qed.

(** A mantissa of full width at an exponent in the normal range is
    already rounded. *)
Lemma binary_round_aux_full s m e :
  Zpos (digits2_pos m) = Float64.prec -> -1074 <= e <= 971 ->
  binary_round_aux Float64.prec Float64.emax s (Zpos m) e loc_Exact
  = S754_finite s m e.
Proof.
  intros Hd He. unfold binary_round_aux, shr_fexp, fexp, emin.
  cbn [Zdigits2 shr_record_of_loc]. rewrite Hd.
  unfold Float64.prec, Float64.emax.
  replace (Z.max (53 + e - 53) (3 - 1024 - 53) - e) with 0 by lia.
  cbn [shr shr_m loc_of_shr_record round_nearest_even Zdigits2
         shr_record_of_loc].
  rewrite Hd. unfold Float64.prec.
  replace (Z.max (53 + e - 53) (3 - 1024 - 53) - e) with 0 by lia.
  cbn [shr shr_m].
  replace (e <=? 1024 - 53) with true by (symmetry; apply Z.leb_le; lia).
  reflexivity.
Qed.

(** Rounding [m * 2^-1] for a mantissa of at most 53 bits: the mantissa is
    shifted to full width and nothing is lost. *)
Lemma binary_round_half s m :
  Zpos (digits2_pos m) <= 53 ->
  exists m' e',
    binary_round Float64.prec Float64.emax s m (-1) = S754_finite s m' e'
    /\ e' < 0 /\ Zpos m' * 2 = Zpos m * 2 ^ (- e').
Proof.
  intros Hd. unfold binary_round, shl_align, fexp, emin.
  unfold Float64.prec, Float64.emax.
  set (d := Zpos (digits2_pos m)) in *.
  replace (Z.max (d + -1 - 53) (3 - 1024 - 53) - -1) with (d - 53) by lia.
  replace (Z.max (d + -1 - 53) (3 - 1024 - 53)) with (d - 54) by lia.
  destruct (d - 53) as [| k | k] eqn:Hk; try lia.
  - exists m, (-1). split; [| split; [lia | simpl; lia]].
    apply binary_round_aux_full; unfold Float64.prec; fold d; lia.
  - exists (Pos.iter xO m k), (d - 54). split; [| split; [lia |]].
    + apply binary_round_aux_full; [| lia].
      rewrite iter_xO_digits, Pos2Z.inj_add. fold d.
      unfold Float64.prec. lia.
    + rewrite iter_xO_value.
      replace (- (d - 54)) with (Zpos k + 1) by lia.
      rewrite Z.pow_add_r by lia. ring.
Qed.

(** [n / 2] is exact for every integer that a binary64 mantissa holds. *)
Lemma int_truediv_2_exact n :
  Z.abs n < 2 ^ 53 ->
  exists f q,
    Float64.int_truediv_2 n = Ok f /\ Float64.value f = Some q
    /\ Qeq q (Qmake n 2).
Proof.
  intros Hn. unfold Float64.int_truediv_2.
  destruct n as [| p | p]; cbn [binary_normalize].
  - exists (S754_zero false), (Qmake 0 1). repeat split.
  - destruct (binary_round_half false p) as (m' & e' & -> & He & Hm).
    { apply digits2_pos_bound; lia. }
    exists (S754_finite false m' e'). eexists. split; [reflexivity |].
    split; [reflexivity |].
    cbn [Float64.value].
    replace (0 <=? e') with false by (symmetry; apply Z.leb_gt; lia).
    unfold Qeq. cbn [Qnum Qden Float64.signed cond_Zopp].
    rewrite Z2Pos.id by (apply Z.pow_pos_nonneg; lia). lia.
  - destruct (binary_round_half true p) as (m' & e' & -> & He & Hm).
    { apply digits2_pos_bound; lia. }
    exists (S754_finite true m' e'). eexists. split; [reflexivity |].
    split; [reflexivity |].
    cbn [Float64.value].
    replace (0 <=? e') with false by (symmetry; apply Z.leb_gt; lia).
    unfold Qeq. cbn [Qnum Qden Float64.signed cond_Zopp].
    rewrite Z2Pos.id by (apply Z.pow_pos_nonneg; lia). lia.
Qed.

End Halving.

(** ** The direction codec *)

(** On every input that [int] accepts, the conversion follows its table. *)
Lemma convert_to_midea_direction_of_int v n :
  py_int v = Ok n ->
  _convert_to_midea_direction v
  = Ok (if (n =? 0xFD) || (n =? 0xFE) || ((60 <=? n) && (n <=? 120))
        then n else 0xFF).
Proof.
  intros H. unfold _convert_to_midea_direction. rewrite H.
  unfold DIRECTION_OSCILLATE, DIRECTION_STOP, DIRECTION_MIN_VALUE,
    DIRECTION_MAX_VALUE, DIRECTION_FF.
  destruct ((n =? 0xFD) || (n =? 0xFE) || ((60 <=? n) && (n <=? 120)));
    reflexivity.
Qed.

Lemma convert_to_midea_direction_range v n :
  _convert_to_midea_direction v = Ok n ->
  n = 0xFD \/ n = 0xFE \/ n = 0xFF \/ 60 <= n <= 120.
Proof.
  unfold _convert_to_midea_direction.
  destruct (py_int v) as [d | e]; [| discriminate].
  unfold DIRECTION_OSCILLATE, DIRECTION_STOP, DIRECTION_MIN_VALUE,
    DIRECTION_MAX_VALUE, DIRECTION_FF.
  destruct (d =? 0xFD) eqn:H1; cbn [orb].
  { intros [= <-]. apply Z.eqb_eq in H1. lia. }
  destruct (d =? 0xFE) eqn:H2; cbn [orb].
  { intros [= <-]. apply Z.eqb_eq in H2. lia. }
  destruct ((60 <=? d) && (d <=? 120)) eqn:H3; intros [= <-]; [| lia].
  apply andb_true_iff in H3 as [Ha Hb].
  apply Z.leb_le in Ha. apply Z.leb_le in Hb. lia.
Qed.

(** C1 (as the code runs it): a string that is no integer literal makes
    [int] raise, and [_convert_to_midea_direction] lets the ValueError
    through instead of returning 0xFF; so does an infinite or NaN float. *)
Theorem convert_to_midea_direction_raises :
  _convert_to_midea_direction (VStr "abc") = Raise ValueError /\
  _convert_to_midea_direction (VStr EmptyString) = Raise ValueError /\
  _convert_to_midea_direction (VStr "90.5") = Raise ValueError /\
  _convert_to_midea_direction (VFloat S754_nan) = Raise ValueError /\
  _convert_to_midea_direction (VFloat (S754_infinity false))
    = Raise OverflowError.
Proof. repeat split; reflexivity. Qed.

(** C3: [_get_midea_direction] answers 0xFD when the stored oscillation is
    True, whatever the stored direction; the stored direction when the
    oscillation is False and a direction is set; 0xFE when the oscillation is
    False and the direction is unset; 0xFF when the oscillation is unset. *)
Theorem get_midea_direction_table (a : Attributes) :
  (attr_get a DeviceAttributes.oscillation = VBool true ->
   _get_midea_direction a = VInt 0xFD) /\
  (attr_get a DeviceAttributes.oscillation = VBool false ->
   attr_get a DeviceAttributes.direction <> VNone ->
   _get_midea_direction a = attr_get a DeviceAttributes.direction) /\
  (attr_get a DeviceAttributes.oscillation = VBool false ->
   attr_get a DeviceAttributes.direction = VNone ->
   _get_midea_direction a = VInt 0xFE) /\
  (attr_get a DeviceAttributes.oscillation = VNone ->
   _get_midea_direction a = VInt 0xFF).
Proof.
  unfold _get_midea_direction. repeat split.
  - intros ->. reflexivity.
  - intros -> Hd. destruct (attr_get a DeviceAttributes.direction);
      congruence.
  - intros -> ->. reflexivity.
  - intros ->. reflexivity.
Qed.

Lemma get_midea_direction_table_witness :
  let a := attr_set (attr_set initial_attributes DeviceAttributes.oscillation
                       (VBool false)) DeviceAttributes.direction (VInt 75) in
  _get_midea_direction a = VInt 75
  /\ _get_midea_direction
       (attr_set a DeviceAttributes.oscillation (VBool true)) = VInt 0xFD
  /\ _get_midea_direction
       (attr_set a DeviceAttributes.direction VNone) = VInt 0xFE
  /\ _get_midea_direction initial_attributes = VInt 0xFF.
Proof.
  cbv zeta. split; [| split; [| split]].
  - rewrite (proj1 (proj2 (get_midea_direction_table _)));
      [reflexivity | reflexivity | discriminate].
  - apply (proj1 (get_midea_direction_table _)). reflexivity.
  - apply (proj1 (proj2 (proj2 (get_midea_direction_table _))));
      reflexivity.
  - apply (proj2 (proj2 (proj2 (get_midea_direction_table _)))).
    reflexivity.
Defined.

(** ** The loop of [process_message] *)

Lemma only_attributes_refl w : only_attributes w w.
Proof. exists (_attributes (dev w)). destruct w as [h [] s u l]. reflexivity. Qed.

Lemma only_attributes_trans w1 w2 w3 :
  only_attributes w1 w2 -> only_attributes w2 w3 -> only_attributes w1 w3.
Proof. intros [a ->] [b ->]. exists b. reflexivity. Qed.

Lemma only_attributes_store w k v : only_attributes w (store_attribute w k v).
Proof. eexists. reflexivity. Qed.

Create HintDb x40.
#[local] Hint Resolve only_attributes_refl only_attributes_store : x40.

Lemma process_status_only_attributes message status w ns :
  only_attributes w (fst (process_status message status w ns)).
Proof.
  unfold process_status.
  destruct (getattr message _); [| auto with x40].
  destruct (if _ && _ then _ else _) as [value | e]; [| auto with x40].
  repeat match goal with
         | |- context [if ?b then _ else _] => destruct b
         end; cbn [fst];
    eauto using only_attributes_trans with x40.
Qed.

Lemma process_statuses_only_attributes message statuses :
  forall w ns,
    only_attributes w (fst (process_statuses message statuses w ns)).
Proof.
  induction statuses as [| status rest IH]; intros w ns; cbn [process_statuses].
  - auto with x40.
  - pose proof (process_status_only_attributes message status w ns) as H.
    destruct (process_status message status w ns) as [w1 [ns1 | e]];
      cbn [fst] in *; [| exact H].
    eapply only_attributes_trans; [exact H | apply IH].
Qed.

(** A round writes the key it handles; the round for [direction] also writes
    [oscillation].  A key that the message does not expose is skipped. *)
Lemma process_status_frame message status w ns k :
  getattr message (DeviceAttributes.name status) = None
  \/ (status <> k /\ status <> DeviceAttributes.direction) ->
  attribute (fst (process_status message status w ns)) k = attribute w k.
Proof.
  unfold process_status. intros [-> | [Hk Hd]]; [reflexivity |].
  destruct (getattr message _); [| reflexivity].
  destruct (if _ && _ then _ else _) as [value | e]; [| reflexivity].
  destruct status; try congruence; cbn [DeviceAttributes.eqb fst];
    destruct k; try congruence; reflexivity.
Qed.

Lemma process_statuses_frame message statuses k :
  (forall status, In status statuses ->
     getattr message (DeviceAttributes.name status) = None
     \/ (status <> k /\ status <> DeviceAttributes.direction)) ->
  forall w ns,
    attribute (fst (process_statuses message statuses w ns)) k
    = attribute w k.
Proof.
  induction statuses as [| status rest IH]; intros Hall w ns;
    cbn [process_statuses]; [reflexivity |].
  pose proof (process_status_frame message status w ns k
                (Hall status (or_introl eq_refl))) as H.
  destruct (process_status message status w ns) as [w1 [ns1 | e]];
    cbn [fst] in *; [| exact H].
  rewrite IH; [exact H |]. intros s Hs. apply Hall. right. exact Hs.
Qed.

(** Only the round for [current_temperature] can raise. *)
Lemma process_status_ok message status w ns :
  status <> DeviceAttributes.current_temperature ->
  exists ns', snd (process_status message status w ns) = Ok ns'.
Proof.
  intros Hs. unfold process_status.
  destruct (getattr message _); [| eauto].
  replace (DeviceAttributes.eqb status DeviceAttributes.current_temperature)
    with false
    by (destruct status; first [reflexivity | exfalso; apply Hs; reflexivity]).
  rewrite andb_false_r.
  repeat match goal with
         | |- context [if ?b then _ else _] => destruct b
         end; cbn [snd]; eauto.
Qed.

Lemma process_statuses_ok message statuses :
  ~ In DeviceAttributes.current_temperature statuses ->
  forall w ns,
    exists ns', snd (process_statuses message statuses w ns) = Ok ns'.
Proof.
  induction statuses as [| status rest IH]; intros Hnot w ns;
    cbn [process_statuses]; [eauto |].
  destruct (process_status_ok message status w ns) as [ns1 H1].
  { intros ->. apply Hnot. left. reflexivity. }
  destruct (process_status message status w ns) as [w1 r]; cbn [snd] in H1.
  subst r. apply IH. intros Hin. apply Hnot. right. exact Hin.
Qed.

Lemma process_statuses_app message l1 l2 :
  forall w ns,
    process_statuses message (l1 ++ l2) w ns
    = match process_statuses message l1 w ns with
      | (w', Ok ns') => process_statuses message l2 w' ns'
      | (w', Raise e) => (w', Raise e)
      end.
Proof.
  induction l1 as [| status rest IH]; intros w ns; cbn [process_statuses app];
    [reflexivity |].
  destruct (process_status message status w ns) as [w1 [ns1 | e]];
    [apply IH | reflexivity].
Qed.

Lemma attr_get_set a k v : attr_get (attr_set a k v) k = v.
Proof. destruct k; reflexivity. Qed.

Lemma attr_get_set_other a k k' v :
  k <> k' -> attr_get (attr_set a k v) k' = attr_get a k'.
Proof. intros H. destruct k, k'; try reflexivity; congruence. Qed.

Lemma attribute_store w k v : attribute (store_attribute w k v) k = v.
Proof. apply attr_get_set. Qed.

Lemma attribute_store_other w k k' v :
  k <> k' -> attribute (store_attribute w k v) k' = attribute w k'.
Proof. apply attr_get_set_other. Qed.

Lemma dict_get_set {V} (d : list (string * V)) k v :
  dict_get (dict_set d k v) k = Some v.
Proof.
  induction d as [| [k' v'] d IH]; cbn [dict_set dict_get].
  - rewrite String.eqb_refl. reflexivity.
  - destruct (String.eqb k' k) eqn:E; cbn [dict_get]; rewrite E;
      [reflexivity | exact IH].
Qed.

Lemma process_message_loop message w :
  process_message message w
  = process_statuses message DeviceAttributes.keys (received message w) [].
Proof. reflexivity. Qed.

Lemma received_attributes message w :
  _attributes (dev (received message w)) = _attributes (dev w).
Proof. reflexivity. Qed.

Lemma received_precision_halves message w :
  _precision_halves (dev (received message w)) = _precision_halves (dev w).
Proof. reflexivity. Qed.

Lemma process_status_direction_int message w ns b :
  getattr message "direction" = Some (VInt b) ->
  exists ns',
    process_status message DeviceAttributes.direction w ns
    = (decoded_direction w b, Ok ns').
Proof.
  intros H. unfold process_status, decoded_direction.
  change (DeviceAttributes.name DeviceAttributes.direction) with "direction".
  rewrite H. cbn [DeviceAttributes.eqb]. rewrite andb_false_r.
  cbn [py_eq_int].
  destruct ((b =? DIRECTION_STOP) || (b =? DIRECTION_00)
            || (b =? DIRECTION_FF)); [eexists; reflexivity |].
  destruct (b =? DIRECTION_OSCILLATE); eexists; reflexivity.
Qed.

(** After the whole loop, [direction] is what the round for [direction]
    left, and so is [oscillation] as long as the message has no attribute
    named oscillation for the later round to copy. *)
Lemma process_statuses_direction message w b :
  getattr message "direction" = Some (VInt b) ->
  let w' := fst (process_statuses message DeviceAttributes.keys w []) in
  exists w1,
    attribute w1 DeviceAttributes.direction
    = attribute w DeviceAttributes.direction
    /\ attribute w1 DeviceAttributes.oscillation
       = attribute w DeviceAttributes.oscillation
    /\ attribute w' DeviceAttributes.direction
       = attribute (decoded_direction w1 b) DeviceAttributes.direction
    /\ (getattr message "oscillation" = None ->
        attribute w' DeviceAttributes.oscillation
        = attribute (decoded_direction w1 b) DeviceAttributes.oscillation).
Proof.
  intros Hdir w'. subst w'.
  change DeviceAttributes.keys with
    ([DeviceAttributes.light; DeviceAttributes.fan_speed]
       ++ DeviceAttributes.direction
       :: [DeviceAttributes.oscillation; DeviceAttributes.ventilation;
           DeviceAttributes.smelly_sensor;
           DeviceAttributes.current_temperature]).
  rewrite process_statuses_app.
  set (prefix := [DeviceAttributes.light; DeviceAttributes.fan_speed]).
  destruct (process_statuses_ok message prefix) with
    (w := w) (ns := @nil (string * PyVal)) as [ns1 Hok].
  { intros [H | [H | []]]; discriminate. }
  assert (Hframe : forall k,
             k = DeviceAttributes.direction
             \/ k = DeviceAttributes.oscillation ->
             attribute (fst (process_statuses message prefix w [])) k
             = attribute w k).
  { intros k Hk. apply process_statuses_frame.
    intros s [<- | [<- | []]]; right; destruct Hk as [-> | ->];
      split; discriminate. }
  destruct (process_statuses message prefix w []) as [w1 r1].
  cbn [fst snd] in *. subst r1. exists w1.
  split; [apply Hframe; left; reflexivity |].
  split; [apply Hframe; right; reflexivity |].
  set (suffix := [DeviceAttributes.oscillation; DeviceAttributes.ventilation;
                  DeviceAttributes.smelly_sensor;
                  DeviceAttributes.current_temperature]).
  change (process_statuses message (DeviceAttributes.direction :: suffix)
            w1 ns1)
    with (match process_status message DeviceAttributes.direction w1 ns1 with
          | (w, Ok new_status) => process_statuses message suffix w new_status
          | (w, Raise e) => (w, Raise e)
          end).
  destruct (process_status_direction_int message w1 ns1 b Hdir) as [ns2 ->].
  split.
  - apply process_statuses_frame.
    intros s [<- | [<- | [<- | [<- | []]]]]; right; split; discriminate.
  - intros Hosc. apply process_statuses_frame.
    intros s [<- | [<- | [<- | [<- | []]]]];
      first [left; exact Hosc | right; split; discriminate].
Qed.

(** C2: for a message that exposes the direction byte [b] (the wire carries
    direction and oscillation in this one byte, so the message has no
    attribute named oscillation), [process_message] leaves the stored
    direction and oscillation as they were when [b] is 0x00, 0xFE or 0xFF;
    sets oscillation to True and clears the direction when [b] is 0xFD; sets
    oscillation to False and the direction to [b] when [b] is in
    [[60,120]]. *)
Theorem process_message_direction_decode message w b :
  getattr message "direction" = Some (VInt b) ->
  getattr message "oscillation" = None ->
  let w' := fst (process_message message w) in
  (b = 0x00 \/ b = 0xFE \/ b = 0xFF ->
   attribute w' DeviceAttributes.direction
   = attribute w DeviceAttributes.direction
   /\ attribute w' DeviceAttributes.oscillation
      = attribute w DeviceAttributes.oscillation)
  /\ (b = 0xFD ->
      attribute w' DeviceAttributes.oscillation = VBool true
      /\ attribute w' DeviceAttributes.direction = VNone)
  /\ (60 <= b <= 120 ->
      attribute w' DeviceAttributes.oscillation = VBool false
      /\ attribute w' DeviceAttributes.direction = VInt b).
Proof.
  intros Hdir Hosc w'. subst w'. rewrite process_message_loop.
  destruct (process_statuses_direction message (received message w) b Hdir)
    as (w1 & Hd1 & Ho1 & -> & Ho2).
  rewrite (Ho2 Hosc). clear Ho2.
  change (attribute (received message w)) with (attribute w) in *.
  unfold decoded_direction, DIRECTION_STOP, DIRECTION_00, DIRECTION_FF,
    DIRECTION_OSCILLATE.
  split; [| split].
  - intros Hb.
    replace ((b =? 254) || (b =? 0) || (b =? 255)) with true
      by (symmetry; destruct Hb as [-> | [-> | ->]]; reflexivity).
    split; assumption.
  - intros ->. cbn [Z.eqb Pos.eqb orb].
    split; [| apply attribute_store].
    rewrite attribute_store_other by discriminate. apply attribute_store.
  - intros Hb.
    replace ((b =? 254) || (b =? 0) || (b =? 255)) with false
      by (symmetry; rewrite !orb_false_iff, !Z.eqb_neq; lia).
    replace (b =? 253) with false by (symmetry; apply Z.eqb_neq; lia).
    split; [| apply attribute_store].
    rewrite attribute_store_other by discriminate. apply attribute_store.
Qed.

Lemma process_message_direction_decode_witness :
  let message :=
    {| r_fields := ∅; r_attrs := {[ "direction" := VInt 90 ]} |} in
  let w' :=
    fst (process_message message (__init__ JsonFragment.loads 1 3 EmptyString)) in
  attribute w' DeviceAttributes.oscillation = VBool false
  /\ attribute w' DeviceAttributes.direction = VInt 90.
Proof.
  cbv zeta.
  destruct (process_message_direction_decode
              {| r_fields := ∅; r_attrs := {[ "direction" := VInt 90 ]} |}
              (__init__ JsonFragment.loads 1 3 EmptyString) 90)
    as (_ & _ & H); [reflexivity | reflexivity |].
  apply H. lia.
Defined.

(** Were the message to carry an attribute named oscillation, the round
    for that key, which comes after the one for [direction], would copy it
    over what the direction byte decoded to. *)
Example process_message_oscillation_attribute :
  let message :=
    {| r_fields := ∅;
       r_attrs := <[ "oscillation" := VBool false ]>
                    {[ "direction" := VInt 0xFD ]} |} in
  let w' :=
    fst (process_message message (__init__ JsonFragment.loads 1 3 EmptyString)) in
  attribute w' DeviceAttributes.oscillation = VBool false
  /\ attribute w' DeviceAttributes.direction = VNone.
Proof. cbv zeta. split; vm_compute; reflexivity. Qed.

(** A message whose direction byte is in the table keeps the stored
    direction in its domain. *)
Lemma process_message_direction_domain message w b :
  getattr message "direction" = Some (VInt b) ->
  direction_byte_in_table b ->
  direction_domain (attribute w DeviceAttributes.direction) ->
  direction_domain
    (attribute (fst (process_message message w)) DeviceAttributes.direction).
Proof.
  intros Hdir Hb Hw. rewrite process_message_loop.
  destruct (process_statuses_direction message (received message w) b Hdir)
    as (w1 & Hd1 & _ & -> & _).
  change (attribute (received message w)) with (attribute w) in *.
  unfold decoded_direction, DIRECTION_STOP, DIRECTION_00, DIRECTION_FF,
    DIRECTION_OSCILLATE.
  destruct ((b =? 254) || (b =? 0) || (b =? 255)) eqn:E1;
    [rewrite Hd1; exact Hw |].
  destruct (b =? 253) eqn:E2; rewrite attribute_store; [left; reflexivity |].
  right. exists b. split; [reflexivity |].
  rewrite !orb_false_iff, !Z.eqb_neq in E1. rewrite Z.eqb_neq in E2.
  unfold direction_byte_in_table in Hb. lia.
Qed.

(** A message without a direction attribute leaves the stored direction. *)
Lemma process_message_no_direction message w :
  getattr message "direction" = None ->
  attribute (fst (process_message message w)) DeviceAttributes.direction
  = attribute w DeviceAttributes.direction.
Proof.
  intros Hdir. rewrite process_message_loop.
  rewrite process_statuses_frame; [reflexivity |].
  intros s Hs. destruct s; first [left; exact Hdir | right; split; discriminate].
Qed.

(** C4 (as the code runs it): the round for [direction] stores every byte
    that is none of 0x00, 0xFD, 0xFE, 0xFF; a frame with direction byte 30,
    received by a new device, leaves the stored direction at 30, outside
    the declared domain. *)
Theorem process_message_stores_direction_outside_domain :
  let message :=
    {| r_fields := ∅; r_attrs := {[ "direction" := VInt 30 ]} |} in
  let w' :=
    fst (process_message message (__init__ JsonFragment.loads 1 3 EmptyString)) in
  reachable JsonFragment.loads w'
  /\ attribute w' DeviceAttributes.direction = VInt 30
  /\ attribute w' DeviceAttributes.oscillation = VBool false
  /\ ~ direction_domain (attribute w' DeviceAttributes.direction).
Proof.
  cbv zeta. split; [apply reachable_process_message, reachable_init |].
  assert (H : attribute
                (fst (process_message
                        {| r_fields := ∅;
                           r_attrs := {[ "direction" := VInt 30 ]} |}
                        (__init__ JsonFragment.loads 1 3 EmptyString)))
                DeviceAttributes.direction = VInt 30)
    by (vm_compute; reflexivity).
  split; [exact H |]. split; [vm_compute; reflexivity |].
  rewrite H. intros [Hn | (b & Hb & Hr)]; [discriminate |].
  injection Hb as <-. lia.
Qed.

(** ** Outbound requests *)

Lemma is_settable_false attr :
  ~ In attr ["light"; "fan_speed"; "direction"; "ventilation";
             "smelly_sensor"] ->
  is_settable attr = false.
Proof.
  intros H. unfold is_settable, settable. cbn [existsb DeviceAttributes.name].
  repeat match goal with
         | |- context [String.eqb attr ?s] =>
             replace (String.eqb attr s) with false
             by (symmetry; apply String.eqb_neq; intros ->; apply H;
                 cbn [In]; tauto)
         end.
  reflexivity.
Qed.

Lemma apply_request_fields message attr value message' :
  apply_request message attr value = Ok message' ->
  ms_fields message' = ms_fields message.
Proof.
  unfold apply_request, setattr.
  repeat match goal with
         | |- context [if ?b then _ else _] => destruct b
         | |- context [match ?r with Ok _ => _ | Raise _ => _ end] =>
             destruct r
         end;
    intros [= <-]; reflexivity.
Qed.

Lemma set_attribute_dev attr value w :
  dev (fst (set_attribute attr value w)) = dev w.
Proof.
  unfold set_attribute. destruct (is_settable attr); [| reflexivity].
  destruct (apply_request _ attr value); reflexivity.
Qed.

(** C5: a request for [ventilation] while the stored fan speed equals 2
    sends one message, with [fan_speed] 1 and [ventilation] the requested
    value coerced to a bool. *)
Theorem set_attribute_ventilation_at_speed_2 value w :
  py_eq_int (attribute w DeviceAttributes.fan_speed) VENTILATION_FAN_SPEED
  = true ->
  exists message,
    set_attribute "ventilation" value w = (build_send w message, Ok tt)
    /\ sent (build_send w message) = sent w ++ [message]
    /\ ms_fan_speed message = VInt 1
    /\ ms_ventilation message = VBool (py_bool value).
Proof.
  intros H. unfold set_attribute, apply_request.
  change (is_settable "ventilation") with true.
  cbn [DeviceAttributes.name]. change (String.eqb "ventilation" "direction") with false.
  change (String.eqb "ventilation" "ventilation") with true.
  cbn [andb message_from_state ms_fan_speed]. unfold attribute in H.
  rewrite H. eexists. repeat split.
Qed.

Lemma set_attribute_ventilation_at_speed_2_witness :
  let w :=
    store_attribute (__init__ JsonFragment.loads 1 3 EmptyString)
      DeviceAttributes.fan_speed (VInt 2) in
  exists message,
    set_attribute "ventilation" (VBool true) w = (build_send w message, Ok tt)
    /\ sent (build_send w message) = sent w ++ [message]
    /\ ms_fan_speed message = VInt 1
    /\ ms_ventilation message = VBool true.
Proof.
  cbv zeta.
  apply (set_attribute_ventilation_at_speed_2 (VBool true)
           (store_attribute (__init__ JsonFragment.loads 1 3 EmptyString)
              DeviceAttributes.fan_speed (VInt 2))).
  reflexivity.
Defined.

(** C9: [set_attribute] leaves the device as it was: the attribute dict, the
    reference held in [_fields] and the dict it names, and the precision
    flag; at most one message is handed to [build_send], and that message
    shares the [_fields] dict. *)
Theorem set_attribute_keeps_state attr value w :
  let w' := fst (set_attribute attr value w) in
  dev w' = dev w
  /\ (forall k, attribute w' k = attribute w k)
  /\ heap w' = heap w
  /\ heap w' !! _fields (dev w') = heap w !! _fields (dev w)
  /\ updates w' = updates w
  /\ log w' = log w
  /\ (sent w' = sent w
      \/ exists message,
           sent w' = sent w ++ [message]
           /\ ms_fields message = _fields (dev w)).
Proof.
  unfold set_attribute. destruct (is_settable attr);
    [| cbn [fst]; repeat split; left; reflexivity].
  destruct (apply_request _ attr value) as [message | e] eqn:E;
    cbn [fst]; repeat split; [right | left; reflexivity].
  exists message. split; [reflexivity |].
  apply apply_request_fields in E. exact E.
Qed.

(** C10: for a name outside the five settable ones, [set_attribute] does
    nothing: no message, no change of state, no exception. *)
Theorem set_attribute_other_name_is_noop attr value w :
  ~ In attr ["light"; "fan_speed"; "direction"; "ventilation";
             "smelly_sensor"] ->
  set_attribute attr value w = (w, Ok tt).
Proof.
  intros H. unfold set_attribute. rewrite (is_settable_false attr H).
  reflexivity.
Qed.

Lemma set_attribute_other_name_is_noop_witness :
  let w := __init__ JsonFragment.loads 1 3 EmptyString in
  set_attribute "oscillation" (VBool true) w = (w, Ok tt)
  /\ set_attribute "current_temperature" (VInt 20) w = (w, Ok tt)
  /\ set_attribute "power" (VStr "on") w = (w, Ok tt).
Proof.
  cbv zeta. split; [| split];
    apply set_attribute_other_name_is_noop;
    cbn [In]; intros H; repeat destruct H as [H | H]; try discriminate H;
    exact H.
Defined.

(** ** Precision halving *)

Lemma process_status_current_temperature message w ns v f :
  py_bool (_precision_halves (dev w)) = true ->
  getattr message "current_temperature" = Some (VInt v) ->
  Float64.int_truediv_2 v = Ok f ->
  process_status message DeviceAttributes.current_temperature w ns
  = (store_attribute w DeviceAttributes.current_temperature (VFloat f),
     Ok (dict_set ns "current_temperature" (VFloat f))).
Proof.
  intros Hp Hv Hf. unfold process_status.
  change (DeviceAttributes.name DeviceAttributes.current_temperature)
    with "current_temperature".
  rewrite Hv, Hp. cbn [DeviceAttributes.eqb andb py_truediv_2].
  rewrite Hf. reflexivity.
Qed.

(** C6: with precision halving enabled, a message that exposes the raw
    integer temperature [v] (of a magnitude that a binary64 mantissa holds)
    is processed without error and leaves the float [v / 2], exactly, as the
    stored and as the reported current_temperature. *)
Theorem process_message_halves_current_temperature message w v :
  py_bool (_precision_halves (dev w)) = true ->
  getattr message "current_temperature" = Some (VInt v) ->
  Z.abs v < 2 ^ 53 ->
  exists f q new_status,
    snd (process_message message w) = Ok new_status
    /\ attribute (fst (process_message message w))
         DeviceAttributes.current_temperature = VFloat f
    /\ dict_get new_status "current_temperature" = Some (VFloat f)
    /\ Float64.value f = Some q
    /\ Qeq q (Qmake v 2).
Proof.
  intros Hp Hv Hbound.
  destruct (int_truediv_2_exact v Hbound) as (f & q & Hf & Hq & Heq).
  exists f, q. rewrite process_message_loop.
  change DeviceAttributes.keys with
    ([DeviceAttributes.light; DeviceAttributes.fan_speed;
      DeviceAttributes.direction; DeviceAttributes.oscillation;
      DeviceAttributes.ventilation; DeviceAttributes.smelly_sensor]
       ++ [DeviceAttributes.current_temperature]).
  rewrite process_statuses_app.
  set (prefix := [DeviceAttributes.light; DeviceAttributes.fan_speed;
                  DeviceAttributes.direction; DeviceAttributes.oscillation;
                  DeviceAttributes.ventilation;
                  DeviceAttributes.smelly_sensor]).
  destruct (process_statuses_ok message prefix) with
    (w := received message w) (ns := @nil (string * PyVal)) as [ns1 Hok].
  { cbn [In prefix]. intros H.
    repeat destruct H as [H | H]; try discriminate H; exact H. }
  pose proof (process_statuses_only_attributes message prefix
                (received message w) []) as [a Ha].
  destruct (process_statuses message prefix (received message w) [])
    as [w1 r1].
  cbn [fst snd] in *. subst r1 w1. cbn [process_statuses].
  rewrite (process_status_current_temperature message _ ns1 v f);
    [| exact Hp | exact Hv | exact Hf].
  exists (dict_set ns1 "current_temperature" (VFloat f)).
  split; [reflexivity |]. split; [reflexivity |].
  split; [apply dict_get_set |]. split; assumption.
Qed.

Lemma process_message_halves_current_temperature_witness :
  let w :=
    fst (set_customize JsonFragment.loads JsonFragment.precision_halves_true
           (__init__ JsonFragment.loads 1 3 EmptyString)) in
  let message :=
    {| r_fields := ∅; r_attrs := {[ "current_temperature" := VInt 50 ]} |} in
  _precision_halves (dev w) = VBool true
  /\ exists f q new_status,
       snd (process_message message w) = Ok new_status
       /\ attribute (fst (process_message message w))
            DeviceAttributes.current_temperature = VFloat f
       /\ dict_get new_status "current_temperature" = Some (VFloat f)
       /\ Float64.value f = Some q
       /\ Qeq q (Qmake 50 2).
Proof.
  cbv zeta. split; [vm_compute; reflexivity |].
  apply (process_message_halves_current_temperature
           {| r_fields := ∅;
              r_attrs := {[ "current_temperature" := VInt 50 ]} |}
           (fst (set_customize JsonFragment.loads
                   JsonFragment.precision_halves_true
                   (__init__ JsonFragment.loads 1 3 EmptyString))) 50);
    [vm_compute; reflexivity | reflexivity | vm_compute; reflexivity].
Defined.

(** The scenario of the specification, run: the raw temperature 50 is stored
    as the float 25.0. *)
Example halved_temperature_50 :
  let w :=
    fst (set_customize JsonFragment.loads JsonFragment.precision_halves_true
           (__init__ JsonFragment.loads 1 3 EmptyString)) in
  let message :=
    {| r_fields := ∅; r_attrs := {[ "current_temperature" := VInt 50 ]} |} in
  let stored :=
    attribute (fst (process_message message w))
      DeviceAttributes.current_temperature in
  stored = VFloat (S754_finite false (25 * 2 ^ 48) (-48))
  /\ py_eq_int stored 25 = true.
Proof. cbv zeta. split; vm_compute; reflexivity. Qed.

(** ** Customize *)

Section CustomizeProperties.

Variable json_loads : string -> result PyVal.

Lemma nonempty_guard customize :
  customize <> EmptyString ->
  py_bool (VStr customize) && (0 <? Z.of_nat (String.length customize))
  = true.
Proof. destruct customize; [congruence | reflexivity]. Qed.

Lemma set_customize_default customize w :
  _default_precision_halves (dev (fst (set_customize json_loads customize w)))
  = _default_precision_halves (dev w).
Proof.
  unfold set_customize. destruct (_ && _); [| reflexivity].
  destruct (read_precision_halves json_loads customize) as [[v |] | e];
    reflexivity.
Qed.

Lemma process_message_default message w :
  _default_precision_halves (dev (fst (process_message message w)))
  = _default_precision_halves (dev w).
Proof.
  rewrite process_message_loop.
  destruct (process_statuses_only_attributes message DeviceAttributes.keys
              (received message w) []) as [a ->].
  reflexivity.
Qed.

(** The default stays what the constructor made it. *)
Lemma reachable_default w :
  reachable json_loads w -> _default_precision_halves (dev w) = false.
Proof.
  induction 1 as [id protocol customize | message w _ IH | attr value w _ IH
                 | customize w _ IH].
  - unfold __init__. cbn [alloc]. rewrite set_customize_default. reflexivity.
  - rewrite process_message_default. exact IH.
  - rewrite set_attribute_dev. exact IH.
  - rewrite set_customize_default. exact IH.
Qed.

Lemma set_customize_attributes customize w :
  _attributes (dev (fst (set_customize json_loads customize w)))
  = _attributes (dev w).
Proof.
  unfold set_customize. destruct (_ && _); [| reflexivity].
  destruct (read_precision_halves json_loads customize) as [[v |] | e];
    reflexivity.
Qed.

(** As long as the device sends direction bytes of the table only, the
    stored direction stays in its declared domain. *)
Lemma reachable_in_table_direction_domain w :
  reachable_in_table json_loads w ->
  direction_domain (attribute w DeviceAttributes.direction).
Proof.
  induction 1 as [id protocol customize | message w _ IH Hm | attr value w _ IH
                 | customize w _ IH].
  - unfold attribute, __init__. cbn [alloc]. rewrite set_customize_attributes.
    left. reflexivity.
  - destruct Hm as [Hnone | (b & Hb & Htable)].
    + rewrite process_message_no_direction by exact Hnone. exact IH.
    + eapply process_message_direction_domain; eassumption.
  - unfold attribute. rewrite set_attribute_dev. exact IH.
  - unfold attribute. rewrite set_customize_attributes. exact IH.
Qed.

(** A call with a non-empty string ends with [update_all] on the flag it
    resolved. *)
Lemma set_customize_nonempty_updates customize w :
  customize <> EmptyString ->
  let w' := fst (set_customize json_loads customize w) in
  updates w'
  = updates w ++ [[("precision_halves", _precision_halves (dev w'))]].
Proof.
  intros H. unfold set_customize. rewrite (nonempty_guard customize H).
  destruct (read_precision_halves json_loads customize) as [[v |] | e];
    reflexivity.
Qed.

End CustomizeProperties.

(** C7 (amended): a call of [set_customize] with the empty string puts the
    precision flag back to the default False and returns without calling
    [update_all]; a call with a non-empty string calls [update_all] with the
    flag it resolved. *)
Theorem set_customize_empty_resets_without_update json_loads w :
  reachable json_loads w ->
  let w' := fst (set_customize json_loads EmptyString w) in
  snd (set_customize json_loads EmptyString w) = Ok tt
  /\ _precision_halves (dev w') = VBool false
  /\ updates w' = updates w
  /\ forall customize,
       customize <> EmptyString ->
       let w'' := fst (set_customize json_loads customize w) in
       updates w''
       = updates w ++ [[("precision_halves", _precision_halves (dev w''))]].
Proof.
  intros Hr. cbv zeta. split; [reflexivity |].
  split; [cbn; rewrite (reachable_default json_loads w Hr); reflexivity |].
  split; [reflexivity |].
  intros customize Hc. apply set_customize_nonempty_updates. exact Hc.
Qed.

Lemma set_customize_empty_resets_without_update_witness :
  let w :=
    fst (set_customize JsonFragment.loads JsonFragment.precision_halves_true
           (__init__ JsonFragment.loads 1 3 EmptyString)) in
  let w' := fst (set_customize JsonFragment.loads EmptyString w) in
  _precision_halves (dev w) = VBool true
  /\ _precision_halves (dev w') = VBool false
  /\ updates w' = updates w.
Proof.
  cbv zeta. split; [vm_compute; reflexivity |].
  destruct (set_customize_empty_resets_without_update JsonFragment.loads
              (fst (set_customize JsonFragment.loads
                      JsonFragment.precision_halves_true
                      (__init__ JsonFragment.loads 1 3 EmptyString))))
    as (_ & Hflag & Hupdates & _).
  - apply reachable_set_customize, reachable_init.
  - split; [exact Hflag | exact Hupdates].
Defined.

(** C7 as stated fails: on a device whose flag was set to True, the call
    with the empty string resets the flag, and [update_all] receives
    nothing. *)
Lemma set_customize_empty_does_not_update :
  let w :=
    fst (set_customize JsonFragment.loads JsonFragment.precision_halves_true
           (__init__ JsonFragment.loads 1 3 EmptyString)) in
  let w' := fst (set_customize JsonFragment.loads EmptyString w) in
  ~ (_precision_halves (dev w') = VBool false
     /\ exists status, updates w' = updates w ++ [status]).
Proof.
  cbv zeta. intros [_ [status H]]. vm_compute in H. discriminate H.
Qed.

(** C8: a non-empty customize string that [json.loads] rejects makes
    [set_customize] return normally, with the exception logged, the
    precision flag at the default False, and that flag handed to
    [update_all]. *)
Theorem set_customize_malformed json_loads w customize e :
  reachable json_loads w ->
  customize <> EmptyString ->
  json_loads customize = Raise e ->
  let w' := fst (set_customize json_loads customize w) in
  snd (set_customize json_loads customize w) = Ok tt
  /\ _precision_halves (dev w') = VBool false
  /\ log w' = log w ++ [LogSetCustomizeError (device_id (dev w)) e]
  /\ updates w' = updates w ++ [[("precision_halves", VBool false)]].
Proof.
  intros Hr Hc He. cbv zeta. unfold set_customize, read_precision_halves.
  rewrite (nonempty_guard customize Hc), He.
  cbn. rewrite (reachable_default json_loads w Hr). repeat split.
Qed.

Lemma set_customize_malformed_witness :
  let w :=
    fst (set_customize JsonFragment.loads JsonFragment.precision_halves_true
           (__init__ JsonFragment.loads 1 3 EmptyString)) in
  let w' := fst (set_customize JsonFragment.loads JsonFragment.bad_json w) in
  snd (set_customize JsonFragment.loads JsonFragment.bad_json w) = Ok tt
  /\ _precision_halves (dev w') = VBool false
  /\ log w' = log w ++ [LogSetCustomizeError 1 JSONDecodeError]
  /\ updates w' = updates w ++ [[("precision_halves", VBool false)]].
Proof.
  cbv zeta.
  apply (set_customize_malformed JsonFragment.loads
           (fst (set_customize JsonFragment.loads
                   JsonFragment.precision_halves_true
                   (__init__ JsonFragment.loads 1 3 EmptyString)))
           JsonFragment.bad_json JSONDecodeError).
  - apply reachable_set_customize, reachable_init.
  - discriminate.
  - vm_compute. reflexivity.
Defined.
